(** * Migration operations of populus: a shallow embedding

    Source: [populus/migrations/operations.py].

    The operations talk to a network client ([web3]), to helpers of
    [populus.utils.transactions] and to the solidity compiler.  None of
    these is part of the module, so they appear here as handlers over an
    abstract world [W]; every call made by an operation is recorded,
    together with the answer it received, in the list of events of the
    run.  Python dictionaries are objects with identity: transaction
    dictionaries live in a heap and operations hold references to them. *)

From stdpp Require Import gmap strings list fin_maps.
From Stdlib Require Import ZArith Lia.

Local Open Scope Z_scope.
Local Open Scope string_scope.

(** ** Values, dictionaries, exceptions *)

Inductive Value : Type :=
| VInt (n : Z)
| VStr (s : string)
| VDeferred (key : string) (value : Value).

Abbreviation Dict := (gmap string Value).

Definition loc := positive.
Definition Hash := string.
Definition Address := string.
Definition Code := string.

(** The exceptions the module raises itself, [OtherError] for whatever
    else a collaborator may raise (a timeout while waiting, say), and
    [DanglingReference] for reading a location that holds no object: no
    Python program can do that, the heap of the model is a partial map. *)
Inductive Exn : Type :=
| ValueError (msg : string)
| KeyError (key : string)
| NotImplementedError (msg : string)
| OtherError (name : string)
| DanglingReference (l : loc).

(** An entry of [compiled_contracts]; [execute] reads exactly these four
    keys of it. *)
Record CompiledArtifact : Type := {
  art_abi : string;
  art_code : Code;
  art_code_runtime : Code;
  art_source : string
}.

(** The object built by [web3.eth.contract(...)]: it keeps the keyword
    arguments it was built from. *)
Record Contract : Type := {
  address : option Address;
  abi : string;
  code : Code;
  code_runtime : Code;
  source : string
}.

(** ** Calls to the collaborators, with the answer received *)

Inductive Event : Type :=
| EvSendTransaction (txn : Dict) (r : Exn + Hash)
| EvEstimateGas (txn : Dict) (r : Exn + Z)
| EvGetCode (a : Address) (r : Exn + Code)
| EvEncodeConstructorData (c : Contract) (args : list Value) (r : Exn + string)
| EvDeploy (c : Contract) (txn : Dict) (args : list Value) (r : Exn + Hash)
| EvContractEstimateGas (c : Contract) (txn : Dict) (method : string)
    (args : list Value) (r : Exn + Z)
| EvContractTransact (c : Contract) (txn : Dict) (method : string)
    (args : list Value) (r : Exn + Hash)
| EvWaitForTransactionReceipt (h : Hash) (timeout : Z) (r : Exn + unit)
| EvGetContractAddressFromTxn (h : Hash) (timeout : Z) (r : Exn + Address)
| EvGetBlockGasLimit (r : Exn + Z)
| EvCompileSource (src : string) (r : Exn + gmap string CompiledArtifact).

(** Equality of all of these is decidable. *)
#[global] Instance Value_eq_dec : EqDecision Value.
Proof. solve_decision. Defined.
#[global] Instance Exn_eq_dec : EqDecision Exn.
Proof. solve_decision. Defined.
#[global] Instance CompiledArtifact_eq_dec : EqDecision CompiledArtifact.
Proof. solve_decision. Defined.
#[global] Instance Contract_eq_dec : EqDecision Contract.
Proof. solve_decision. Defined.
#[global] Instance Event_eq_dec : EqDecision Event.
Proof. solve_decision. Defined.

(** ** The monad: heap of dictionaries, world, exceptions, events *)

Record State (W : Type) : Type := {
  heap : gmap loc Dict;
  world : W
}.
Arguments heap {W} _.
Arguments world {W} _.

Record Outcome (W A : Type) : Type := {
  res : Exn + A;
  st : State W;
  evs : list Event
}.
Arguments res {W A} _.
Arguments st {W A} _.
Arguments evs {W A} _.

Definition M (W A : Type) : Type := State W → Outcome W A.

Section Monad.
Context {W : Type}.

Definition ret {A} (a : A) : M W A :=
  λ s, {| res := inr a; st := s; evs := [] |}.

Definition raise {A} (e : Exn) : M W A :=
  λ s, {| res := inl e; st := s; evs := [] |}.

Definition bind {A B} (m : M W A) (k : A → M W B) : M W B :=
  λ s, let o := m s in
       match res o with
       | inl e => {| res := inl e; st := st o; evs := evs o |}
       | inr a => let o' := k a (st o) in
                  {| res := res o'; st := st o'; evs := evs o ++ evs o' |}
       end.

(** [{}] or [dict(...)]: a new object. *)
Definition alloc (d : Dict) : M W loc :=
  λ s, let l := fresh (dom (heap s)) in
       {| res := inr l;
          st := {| heap := <[l := d]> (heap s); world := world s |};
          evs := [] |}.

Definition load (l : loc) : M W Dict :=
  λ s, match heap s !! l with
       | Some d => ret d s
       | None => raise (DanglingReference l) s
       end.

(** [d[k] = v] *)
Definition setitem (l : loc) (k : string) (v : Value) : M W unit :=
  λ s, match heap s !! l with
       | Some d =>
           {| res := inr tt;
              st := {| heap := <[l := <[k := v]> d]> (heap s);
                       world := world s |};
              evs := [] |}
       | None => raise (DanglingReference l) s
       end.

(** A call to a collaborator: the world answers and moves on, the heap
    is not touched, the call is recorded. *)
Definition call {X} (h : W → (Exn + X) * W) (ev : Exn + X → Event) : M W X :=
  λ s, let rw := h (world s) in
       {| res := rw.1;
          st := {| heap := heap s; world := rw.2 |};
          evs := [ev rw.1] |}.
End Monad.

Notation "'let!' x ':=' m 'in' k" := (bind m (λ x, k))
  (at level 10, x name, m at level 100, k at level 200,
   format "'[v' 'let!'  x  :=  m  'in' '/' k ']'").

Section Python.
Context {W : Type}.

(** The shallow copy the source makes by expanding a dictionary into
    the keyword arguments of [dict]: a new object with the same items. *)
Definition dict_copy (l : loc) : M W loc :=
  let! d := load l in alloc d.

(** [k in d] *)
Definition contains (k : string) (l : loc) : M W bool :=
  let! d := load l in ret (bool_decide (is_Some (d !! k))).

(** [table[k]] *)
Definition getitem {V} (table : gmap string V) (k : string) : M W V :=
  match table !! k with
  | Some v => ret v
  | None => raise (KeyError k)
  end.
End Python.

(** ** The collaborators

    [Web3] is the network client handed to [execute]; the last four
    fields are the methods of the contract objects it builds.  [Imports]
    gathers the names the module imports from elsewhere:
    [force_text] from web3, [compile_source] from solc, and the helpers
    of [populus.utils.transactions] and [REGISTRAR_SOURCE] of
    [.registrar], whose sources are not part of the module. *)

Record Web3 (W : Type) : Type := {
  eth_sendTransaction : Dict → W → (Exn + Hash) * W;
  eth_estimateGas : Dict → W → (Exn + Z) * W;
  eth_getCode : Address → W → (Exn + Code) * W;
  encodeConstructorData : Contract → list Value → W → (Exn + string) * W;
  deploy : Contract → Dict → list Value → W → (Exn + Hash) * W;
  estimateGas : Contract → Dict → string → list Value → W → (Exn + Z) * W;
  transact : Contract → Dict → string → list Value → W → (Exn + Hash) * W
}.
Arguments eth_sendTransaction {W} _.
Arguments eth_estimateGas {W} _.
Arguments eth_getCode {W} _.
Arguments encodeConstructorData {W} _.
Arguments deploy {W} _.
Arguments estimateGas {W} _.
Arguments transact {W} _.

Record Imports (W : Type) : Type := {
  force_text : Code → string;
  wait_for_transaction_receipt : Web3 W → Hash → Z → W → (Exn + unit) * W;
  get_contract_address_from_txn : Web3 W → Hash → Z → W → (Exn + Address) * W;
  get_block_gas_limit : Web3 W → W → (Exn + Z) * W;
  compile_source : string → W → (Exn + gmap string CompiledArtifact) * W;
  REGISTRAR_SOURCE : string
}.
Arguments force_text {W} _.
Arguments wait_for_transaction_receipt {W} _.
Arguments get_contract_address_from_txn {W} _.
Arguments get_block_gas_limit {W} _.
Arguments compile_source {W} _.
Arguments REGISTRAR_SOURCE {W} _.

(** The keyword arguments the runner passes to every [execute]. *)
Record Kwargs (W : Type) : Type := {
  web3 : Web3 W;
  compiled_contracts : gmap string CompiledArtifact
}.
Arguments web3 {W} _.
Arguments compiled_contracts {W} _.

(** [web3.eth.contract(address=..., abi=..., code=..., code_runtime=...,
    source=...)] *)
Definition eth_contract (address : option Address)
    (contract_data : CompiledArtifact) : Contract :=
  {| address := address;
     abi := art_abi contract_data;
     code := art_code contract_data;
     code_runtime := art_code_runtime contract_data;
     source := art_source contract_data |}.

(** Modelled from the spec: [Address.defer] of [.registrar], whose source
    is not part of the module.  The spec describes a DeferredValue as a
    key together with a resolver of its value; [Address.defer(key=k,
    value=v)] is the placeholder registered under [k] that resolves to
    [v]. *)
Definition Address_defer (key : string) (value : Address) : Value :=
  VDeferred key (VStr value).

Definition resolve (v : Value) : option Value :=
  match v with
  | VDeferred _ value => Some value
  | _ => None
  end.

Definition is_none {A} (o : option A) : bool :=
  match o with None => true | Some _ => false end.

(** ** Calls, as the operations make them: a dictionary argument is
    passed by reference and read by the callee at the time of the call. *)
Section Calls.
Context {W : Type} (I : Imports W) (web3 : Web3 W).

Definition sendTransaction (transaction : loc) : M W Hash :=
  let! txn := load transaction in
  call (eth_sendTransaction web3 txn) (EvSendTransaction txn).

Definition estimateGas_eth (transaction : loc) : M W Z :=
  let! txn := load transaction in
  call (eth_estimateGas web3 txn) (EvEstimateGas txn).

Definition getCode (a : Address) : M W Code :=
  call (eth_getCode web3 a) (EvGetCode a).

Definition Contract_encodeConstructorData (c : Contract)
    (arguments : list Value) : M W string :=
  call (encodeConstructorData web3 c arguments)
       (EvEncodeConstructorData c arguments).

Definition Contract_deploy (c : Contract) (transaction : loc)
    (arguments : list Value) : M W Hash :=
  let! txn := load transaction in
  call (deploy web3 c txn arguments) (EvDeploy c txn arguments).

(** [getattr(c.estimateGas(transaction), method_name)] applied to the
    arguments. *)
Definition Contract_estimateGas (c : Contract) (transaction : loc)
    (method_name : string) (arguments : list Value) : M W Z :=
  let! txn := load transaction in
  call (estimateGas web3 c txn method_name arguments)
       (EvContractEstimateGas c txn method_name arguments).

(** [getattr(c.transact(transaction), method_name)] applied to the
    arguments. *)
Definition Contract_transact (c : Contract) (transaction : loc)
    (method_name : string) (arguments : list Value) : M W Hash :=
  let! txn := load transaction in
  call (transact web3 c txn method_name arguments)
       (EvContractTransact c txn method_name arguments).

Definition wait_for_receipt (h : Hash) (timeout : Z) : M W unit :=
  call (wait_for_transaction_receipt I web3 h timeout)
       (EvWaitForTransactionReceipt h timeout).

Definition contract_address_from_txn (h : Hash) (timeout : Z) : M W Address :=
  call (get_contract_address_from_txn I web3 h timeout)
       (EvGetContractAddressFromTxn h timeout).

Definition block_gas_limit : M W Z :=
  call (get_block_gas_limit I web3) EvGetBlockGasLimit.

Definition compile (src : string) : M W (gmap string CompiledArtifact) :=
  call (compile_source I src) (EvCompileSource src).
End Calls.

(** ** The operations *)

Module Operation.
Section Defs.
Context {W : Type}.

Definition execute (kwargs : Kwargs W) : M W Dict :=
  raise (NotImplementedError
    "The `execute` method must be implemented by each Operation subclass").
End Defs.
End Operation.

Module RunPython.
Record t (W : Type) : Type := { callback : Kwargs W → M W Dict }.
Arguments callback {W} _.

Section Defs.
Context {W : Type}.

Definition __init__ (callback : Kwargs W → M W Dict) : M W (t W) :=
  ret {| callback := callback |}.

Definition execute (self : t W) (kwargs : Kwargs W) : M W Dict :=
  callback self kwargs.
End Defs.
End RunPython.

Module SendTransaction.
Record t : Type := { transaction : loc; timeout : option Z }.

(** The class attribute [timeout = 30]: what [self.timeout] reads when
    [__init__] has not set the attribute on the instance. *)
Definition class_timeout : option Z := Some 30.

Section Defs.
Context {W : Type} (I : Imports W).

(** [timeout]: [None] when the argument is left out, [Some None] when
    the caller passes [None]. *)
Definition __init__ (transaction : loc) (timeout : option (option Z))
    : M W t :=
  let timeout := default (Some 120) timeout in
  ret {| transaction := transaction;
         timeout := match timeout with
                    | Some n => Some n
                    | None => class_timeout
                    end |}.

Definition execute (self : t) (web3 : Web3 W) : M W Dict :=
  let! transaction_hash := sendTransaction web3 (transaction self) in
  let! _ := match timeout self with
            | Some n => wait_for_receipt I web3 transaction_hash n
            | None => ret tt
            end in
  ret {[ "transaction-hash" := VStr transaction_hash ]}.
End Defs.
End SendTransaction.

Module DeployContract.
Record t : Type := {
  contract_name : string;
  auto_gas : bool;
  transaction : loc;
  arguments : list Value;
  verify : bool;
  timeout : option Z
}.

(** The class attribute [timeout = None]. *)
Definition class_timeout : option Z := None.

Section Defs.
Context {W : Type} (I : Imports W).

Definition __init__ (contract_name : string)
    (transaction : option loc) (arguments : option (list Value))
    (verify : option bool) (auto_gas : option bool)
    (timeout : option (option Z)) : M W t :=
  let verify := default true verify in
  let auto_gas := default true auto_gas in
  let timeout := default (Some 120) timeout in
  if is_none timeout && verify then
    raise (ValueError
      "Invalid configuration.  When verifying a contracts deployment, the timeout value must be set.")
  else
  let! transaction := match transaction with
                      | None => alloc ∅
                      | Some l => ret l
                      end in
  let! has_data := contains "data" transaction in
  let! has_data_or_to := (if has_data then ret true
                          else contains "to" transaction) in
  if has_data_or_to then
    raise (ValueError
      "Invalid configuration.  You cannot specify `data` or `to` values in `DeployContract` transactions.")
  else
  let! gas_clash := (if auto_gas then contains "gas" transaction
                     else ret false) in
  if gas_clash then
    raise (ValueError
      "Invalid configuration.  Cannot use `auto_gas` when specifying a gas value for a transaction")
  else
  let arguments := default [] arguments in
  ret {| contract_name := contract_name;
         auto_gas := auto_gas;
         transaction := transaction;
         arguments := arguments;
         verify := verify;
         timeout := match timeout with
                    | Some n => Some n
                    | None => class_timeout
                    end |}.

Definition execute (self : t) (web3 : Web3 W)
    (compiled_contracts : gmap string CompiledArtifact) : M W Dict :=
  let! contract_data := getitem compiled_contracts (contract_name self) in
  let ContractFactory := eth_contract None contract_data in
  let! deploy_transaction := dict_copy (transaction self) in
  let! _ :=
    (if auto_gas self then
       let! gas_estimate_transaction := dict_copy (transaction self) in
       let! deploy_data :=
         Contract_encodeConstructorData web3 ContractFactory
           (arguments self) in
       let! _ := setitem gas_estimate_transaction "data"
                   (VStr deploy_data) in
       let! gas_estimate := estimateGas_eth web3 gas_estimate_transaction in
       let! gas_limit := block_gas_limit I web3 in
       if gas_estimate >? gas_limit then
         raise (ValueError
           "Contract does not appear to be delpoyable within the current network gas limits")
       else
         setitem deploy_transaction "gas"
           (VInt (Z.min gas_limit (gas_estimate + 100000)))
     else ret tt) in
  let! deploy_transaction_hash :=
    Contract_deploy web3 ContractFactory deploy_transaction
      (arguments self) in
  match timeout self with
  | Some n =>
      let! contract_address :=
        contract_address_from_txn I web3 deploy_transaction_hash n in
      let! _ :=
        (if verify self then
           let! code := getCode web3 contract_address in
           if bool_decide (force_text I code
                           ≠ force_text I (code_runtime ContractFactory))
           then raise (ValueError
             "An error occured during deployment of the contract.")
           else ret tt
         else ret tt) in
      ret (<[ "contract-address" := VStr contract_address ]>
           (<[ "deploy-transaction-hash" := VStr deploy_transaction_hash ]>
           {[ "canonical-contract-address" :=
                Address_defer ("contract" +:+ "/" +:+ contract_name self)
                              contract_address ]}))
  | None =>
      ret {[ "deploy-transaction-hash" := VStr deploy_transaction_hash ]}
  end.
End Defs.
End DeployContract.

Module TransactContract.
Record t : Type := {
  contract_address : option Address;
  contract_name : string;
  method_name : string;
  auto_gas : bool;
  arguments : list Value;
  transaction : loc;
  timeout : option Z
}.

(** The class attribute [timeout = None]. *)
Definition class_timeout : option Z := None.

Section Defs.
Context {W : Type} (I : Imports W).

Definition __init__ (contract_name method_name : string)
    (arguments : option (list Value)) (transaction : option loc)
    (contract_address : option Address) (auto_gas : option bool)
    (timeout : option (option Z)) : M W t :=
  let auto_gas := default true auto_gas in
  let timeout := default (Some 120) timeout in
  let arguments := default [] arguments in
  let! transaction := match transaction with
                      | None => alloc ∅
                      | Some l => ret l
                      end in
  let! gas_clash := (if auto_gas then contains "gas" transaction
                     else ret false) in
  if gas_clash then
    raise (ValueError
      "Invalid configuration.  Cannot use `auto_gas` when specifying a gas value for a transaction")
  else
  ret {| contract_address := contract_address;
         contract_name := contract_name;
         method_name := method_name;
         auto_gas := true;
         arguments := arguments;
         transaction := transaction;
         timeout := match timeout with
                    | Some n => Some n
                    | None => class_timeout
                    end |}.

Definition execute (self : t) (web3 : Web3 W)
    (compiled_contracts : gmap string CompiledArtifact) : M W Dict :=
  let! contract_data := getitem compiled_contracts (contract_name self) in
  let contract := eth_contract (contract_address self) contract_data in
  let! transaction' := dict_copy (transaction self) in
  let! _ :=
    (if auto_gas self then
       let! gas_estimate_txn := dict_copy (transaction self) in
       let! gas_estimate :=
         Contract_estimateGas web3 contract gas_estimate_txn
           (method_name self) (arguments self) in
       let! gas_limit := block_gas_limit I web3 in
       if gas_estimate >? gas_limit then
         raise (ValueError
           "Contract transaction appears to execeed the block gas limit")
       else
         setitem transaction' "gas"
           (VInt (Z.min gas_limit (gas_estimate + 100000)))
     else ret tt) in
  let! transaction_hash :=
    Contract_transact web3 contract (transaction self)
      (method_name self) (arguments self) in
  let! _ := match timeout self with
            | Some n => wait_for_receipt I web3 transaction_hash n
            | None => ret tt
            end in
  ret {[ "deploy-transaction-hash" := VStr transaction_hash ]}.
End Defs.
End TransactContract.

Module DeployRegistrar.
Section Defs.
Context {W : Type} (I : Imports W).

Definition __init__ (transaction : option loc)
    (arguments : option (list Value)) (verify : option bool)
    (auto_gas : option bool) (timeout : option (option Z))
    : M W DeployContract.t :=
  DeployContract.__init__ (W:=W) "Registrar" transaction arguments verify
    auto_gas timeout.

Definition execute (self : DeployContract.t) (web3 : Web3 W) : M W Dict :=
  let! compiled_contracts := compile I (REGISTRAR_SOURCE I) in
  DeployContract.execute I self web3 compiled_contracts.
End Defs.
End DeployRegistrar.

(** The instances a migration is made of, and the method [execute] they
    answer to. *)
Inductive operation (W : Type) : Type :=
| OpBase
| OpRunPython (o : RunPython.t W)
| OpSendTransaction (o : SendTransaction.t)
| OpDeployContract (o : DeployContract.t)
| OpTransactContract (o : TransactContract.t)
| OpDeployRegistrar (o : DeployContract.t).
Arguments OpBase {W}.
Arguments OpRunPython {W} _.
Arguments OpSendTransaction {W} _.
Arguments OpDeployContract {W} _.
Arguments OpTransactContract {W} _.
Arguments OpDeployRegistrar {W} _.

Definition execute {W} (I : Imports W) (op : operation W) (kwargs : Kwargs W)
    : M W Dict :=
  match op with
  | OpBase => Operation.execute kwargs
  | OpRunPython o => RunPython.execute o kwargs
  | OpSendTransaction o => SendTransaction.execute I o (web3 kwargs)
  | OpDeployContract o =>
      DeployContract.execute I o (web3 kwargs) (compiled_contracts kwargs)
  | OpTransactContract o =>
      TransactContract.execute I o (web3 kwargs) (compiled_contracts kwargs)
  | OpDeployRegistrar o => DeployRegistrar.execute I o (web3 kwargs)
  end.

(** ** What a run shows to the outside *)

(** The transaction dictionaries handed to the network for submission,
    as the callee saw them. *)
Definition submitted (e : Event) : option Dict :=
  match e with
  | EvSendTransaction txn _ => Some txn
  | EvDeploy _ txn _ _ => Some txn
  | EvContractTransact _ txn _ _ _ => Some txn
  | _ => None
  end.

Definition submissions (l : list Event) : list Dict := omap submitted l.

(** The gas estimates and the block gas limits the run obtained. *)
Definition gas_estimate_of (e : Event) : option Z :=
  match e with
  | EvEstimateGas _ (inr E) => Some E
  | EvContractEstimateGas _ _ _ _ (inr E) => Some E
  | _ => None
  end.

Definition gas_estimates (l : list Event) : list Z := omap gas_estimate_of l.

Definition block_gas_limit_of (e : Event) : option Z :=
  match e with
  | EvGetBlockGasLimit (inr L) => Some L
  | _ => None
  end.

Definition block_gas_limits (l : list Event) : list Z :=
  omap block_gas_limit_of l.

(** Views on the instances. [DeployRegistrar] is a [DeployContract]. *)
Definition as_deploy {W} (op : operation W) : option DeployContract.t :=
  match op with
  | OpDeployContract o | OpDeployRegistrar o => Some o
  | _ => None
  end.

Definition auto_gas_enabled {W} (op : operation W) : bool :=
  match op with
  | OpDeployContract o | OpDeployRegistrar o => DeployContract.auto_gas o
  | OpTransactContract o => TransactContract.auto_gas o
  | _ => false
  end.

Definition stored_transaction {W} (op : operation W) : option loc :=
  match op with
  | OpSendTransaction o => Some (SendTransaction.transaction o)
  | OpDeployContract o | OpDeployRegistrar o =>
      Some (DeployContract.transaction o)
  | OpTransactContract o => Some (TransactContract.transaction o)
  | _ => None
  end.

Definition is_run_python {W} (op : operation W) : bool :=
  match op with OpRunPython _ => true | _ => false end.

(** The errors of the source, by the message they carry. *)
Definition gas_limit_error {W} (op : operation W) : Exn :=
  match op with
  | OpTransactContract _ =>
      ValueError "Contract transaction appears to execeed the block gas limit"
  | _ =>
      ValueError
        "Contract does not appear to be delpoyable within the current network gas limits"
  end.

Definition verification_error : Exn :=
  ValueError "An error occured during deployment of the contract.".

Definition timeout_required_error : Exn :=
  ValueError
    "Invalid configuration.  When verifying a contracts deployment, the timeout value must be set.".

Definition data_or_to_error : Exn :=
  ValueError
    "Invalid configuration.  You cannot specify `data` or `to` values in `DeployContract` transactions.".

Definition gas_clash_error : Exn :=
  ValueError
    "Invalid configuration.  Cannot use `auto_gas` when specifying a gas value for a transaction".

Definition configuration_errors : list Exn :=
  [timeout_required_error; data_or_to_error; gas_clash_error].

(** A result mapping carries a transaction hash under one of the two
    keys the operations use for it. *)
Definition has_transaction_hash (r : Dict) : bool :=
  bool_decide (is_Some (r !! "transaction-hash"))
  || bool_decide (is_Some (r !! "deploy-transaction-hash")).

(** The key under which an operation returns the hash of what it
    submitted. *)
Definition hash_key {W} (op : operation W) : string :=
  match op with
  | OpSendTransaction _ => "transaction-hash"
  | _ => "deploy-transaction-hash"
  end.

(** The hash the network answered a submission with. *)
Definition submission_hash (e : Event) : option Hash :=
  match e with
  | EvSendTransaction _ (inr h) => Some h
  | EvDeploy _ _ _ (inr h) => Some h
  | EvContractTransact _ _ _ _ (inr h) => Some h
  | _ => None
  end.

(** [force_text] tells apart any two codes that differ. *)
Definition force_text_faithful {W} (I : Imports W) : Prop :=
  ∀ x y : Code, force_text I x = force_text I y → x = y.

(** ** A small concrete network

    The world counts the transactions it has accepted.  Gas estimates,
    the block gas limit and the code found on chain are parameters. *)
Definition demo_web3 (E : Z) (onchain : Code) : Web3 nat :=
  {| eth_sendTransaction := λ _ w, (inr "0x5e4d", S w);
     eth_estimateGas := λ _ w, (inr E, w);
     eth_getCode := λ _ w, (inr onchain, w);
     encodeConstructorData := λ c _ w, (inr (code c), w);
     deploy := λ _ _ _ w, (inr "0xd3b1", S w);
     estimateGas := λ _ _ _ _ w, (inr E, w);
     transact := λ _ _ _ _ w, (inr "0x7a9c", S w) |}.

Definition greeter_artifact : CompiledArtifact :=
  {| art_abi := "[greet, setGreeting]";
     art_code := "0x6060604052";
     art_code_runtime := "0x60606040";
     art_source := "contract Greeter" |}.

Definition demo_imports (L : Z) : Imports nat :=
  {| force_text := λ c, c;
     wait_for_transaction_receipt := λ _ _ _ w, (inr tt, w);
     get_contract_address_from_txn := λ _ _ _ w, (inr "0xc0de", w);
     get_block_gas_limit := λ _ w, (inr L, w);
     compile_source := λ _ w, (inr {[ "Registrar" := greeter_artifact ]}, w);
     REGISTRAR_SOURCE := "contract Registrar" |}.

Definition demo_kwargs (E : Z) (onchain : Code) : Kwargs nat :=
  {| web3 := demo_web3 E onchain;
     compiled_contracts := {[ "Greeter" := greeter_artifact ]} |}.

(** A heap holding one empty transaction dictionary, at location 1. *)
Definition demo_state : State nat :=
  {| heap := {[ 1%positive := ∅ ]}; world := 0%nat |}.

Definition empty_state : State nat := {| heap := ∅; world := 0%nat |}.

Definition demo_deploy (verify : bool) (timeout : option Z)
    : DeployContract.t :=
  {| DeployContract.contract_name := "Greeter";
     DeployContract.auto_gas := true;
     DeployContract.transaction := 1%positive;
     DeployContract.arguments := [];
     DeployContract.verify := verify;
     DeployContract.timeout := timeout |}.

(** Build a [TransactContract] calling [setGreeting("Guten Tag")] with the
    default [auto_gas], then execute it. *)
Definition set_greeting (E L : Z) : M nat Dict :=
  let! op := TransactContract.__init__ "Greeter" "setGreeting"
               (Some [VStr "Guten Tag"]) None (Some "0xc0de") None
               (Some (Some 30)) in
  TransactContract.execute (demo_imports L) op (demo_web3 E "0x60606040")
    {[ "Greeter" := greeter_artifact ]}.

(** Build a [SendTransaction] passing [timeout=None], then execute it. *)
Definition send_without_timeout : M nat Dict :=
  let! txn := alloc {[ "value" := VInt 1 ]} in
  let! op := SendTransaction.__init__ txn (Some None) in
  SendTransaction.execute (demo_imports 4000000) op (demo_web3 21000 "").

(** A [RunPython] whose callback returns an empty mapping. *)
Definition run_nothing : operation nat :=
  OpRunPython {| RunPython.callback := λ _, ret ∅ |}.

(** ** Further views on a run *)

(** The exception a collaborator answered a call with, if it did. *)
Definition answer_error (e : Event) : option Exn :=
  match e with
  | EvSendTransaction _ (inl x) => Some x
  | EvEstimateGas _ (inl x) => Some x
  | EvGetCode _ (inl x) => Some x
  | EvEncodeConstructorData _ _ (inl x) => Some x
  | EvDeploy _ _ _ (inl x) => Some x
  | EvContractEstimateGas _ _ _ _ (inl x) => Some x
  | EvContractTransact _ _ _ _ (inl x) => Some x
  | EvWaitForTransactionReceipt _ _ (inl x) => Some x
  | EvGetContractAddressFromTxn _ _ (inl x) => Some x
  | EvGetBlockGasLimit (inl x) => Some x
  | EvCompileSource _ (inl x) => Some x
  | _ => None
  end.

(** The calls of the gas budgeting: encoding the constructor data,
    estimating, reading the block gas limit. *)
Definition is_gas_call (e : Event) : bool :=
  match e with
  | EvEncodeConstructorData _ _ _ => true
  | EvEstimateGas _ _ => true
  | EvContractEstimateGas _ _ _ _ _ => true
  | EvGetBlockGasLimit _ => true
  | _ => false
  end.

(** The key under which [execute] looks its artifact up in the
    [compiled_contracts] it is given. *)
Definition artifact_key {W} (op : operation W) : option string :=
  match op with
  | OpDeployContract o => Some (DeployContract.contract_name o)
  | OpTransactContract o => Some (TransactContract.contract_name o)
  | _ => None
  end.

(** Two constructions in a row, each without a transaction. *)
Definition construct_two {W} (name1 name2 method : string)
    : M W (DeployContract.t * TransactContract.t) :=
  let! a := DeployContract.__init__ name1 None None None None None in
  let! b := TransactContract.__init__ name2 method None None None None None in
  ret (a, b).

(** A network on which gas estimation fails. *)
Definition failing_web3 : Web3 nat :=
  {| eth_sendTransaction := λ _ w, (inr "0x5e4d", S w);
     eth_estimateGas := λ _ w, (inl (OtherError "ConnectionError"), w);
     eth_getCode := λ _ w, (inr "", w);
     encodeConstructorData := λ c _ w, (inr (code c), w);
     deploy := λ _ _ _ w, (inr "0xd3b1", S w);
     estimateGas := λ _ _ _ _ w, (inl (OtherError "ConnectionError"), w);
     transact := λ _ _ _ _ w, (inr "0x7a9c", S w) |}.

Definition demo_transact (timeout : option Z) : TransactContract.t :=
  {| TransactContract.contract_address := Some "0xc0de";
     TransactContract.contract_name := "Greeter";
     TransactContract.method_name := "setGreeting";
     TransactContract.auto_gas := true;
     TransactContract.arguments := [VStr "Guten Tag"];
     TransactContract.transaction := 1%positive;
     TransactContract.timeout := timeout |}.

(** A heap whose only dictionary carries the given fields. *)
Definition state_with (d : Dict) : State nat :=
  {| heap := {[ 1%positive := d ]}; world := 0%nat |}.

(** Build a [DeployContract] and execute it at once. *)
Definition construct_and_deploy {W} (I : Imports W) (web3 : Web3 W)
    (compiled_contracts : gmap string CompiledArtifact)
    (contract_name : string) (transaction : option loc)
    (arguments : option (list Value)) (verify auto_gas : option bool)
    (timeout : option (option Z)) : M W Dict :=
  let! op := DeployContract.__init__ contract_name transaction arguments
               verify auto_gas timeout in
  DeployContract.execute I op web3 compiled_contracts.

(** A compiler whose output has no [Registrar]. *)
Definition imports_without_registrar : Imports nat :=
  {| force_text := λ c, c;
     wait_for_transaction_receipt := λ _ _ _ w, (inr tt, w);
     get_contract_address_from_txn := λ _ _ _ w, (inr "0xc0de", w);
     get_block_gas_limit := λ _ w, (inr 4000000, w);
     compile_source := λ _ w, (inr ∅, w);
     REGISTRAR_SOURCE := "contract Registrar" |}.

(** What C5 expects of the mapping [r] returned by a deployment whose run
    left the events [events]. *)
Definition deployment_result (self : DeployContract.t) (events : list Event)
    (r : Dict) : Prop :=
  match DeployContract.timeout self with
  | Some n =>
      ∃ (a : Address) (h : Hash) (v : Value),
        r !! "contract-address" = Some (VStr a) ∧
        r !! "deploy-transaction-hash" = Some (VStr h) ∧
        r !! "canonical-contract-address" = Some v ∧
        v = VDeferred ("contract/" +:+ DeployContract.contract_name self)
                      (VStr a) ∧
        resolve v = Some (VStr a) ∧
        EvGetContractAddressFromTxn h n (inr a) ∈ events ∧
        ∃ c t args, EvDeploy c t args (inr h) ∈ events
  | None =>
      ∃ h : Hash,
        r = {[ "deploy-transaction-hash" := VStr h ]} ∧
        ∃ c t args, EvDeploy c t args (inr h) ∈ events
  end.

(** [emit e o]: the outcome [o], preceded by the event [e]. *)
Definition emit {W A} (e : Event) (o : Outcome W A) : Outcome W A :=
  {| res := res o; st := st o; evs := e :: evs o |}.

(** * Properties *)

(** ** Running a computation one step at a time *)

Section Exec.
Context {W : Type}.
Implicit Types s : State W.

Lemma bind_ret {A B} (a : A) (k : A → M W B) s : bind (ret a) k s = k a s.
Proof. unfold bind, ret; simpl. by destruct (k a s). Qed.

Lemma bind_raise {A B} e (k : A → M W B) s : bind (raise e) k s = raise e s.
Proof. reflexivity. Qed.

Lemma bind_assoc {A B C} (m : M W A) (f : A → M W B) (g : B → M W C) s :
  bind (bind m f) g s = bind m (λ x, bind (f x) g) s.
Proof.
  unfold bind. destruct (m s) as [[e|a] s1 ev1]; simpl; [done|].
  destruct (f a s1) as [[e|b] s2 ev2]; simpl; [done|].
  by rewrite app_assoc.
Qed.

Lemma bind_call {X B} (h : W → (Exn + X) * W) ev (k : X → M W B) s :
  bind (call h ev) k s =
  match h (world s) with
  | (inl e, w) =>
      {| res := inl e; st := {| heap := heap s; world := w |};
         evs := [ev (inl e)] |}
  | (inr x, w) => emit (ev (inr x)) (k x {| heap := heap s; world := w |})
  end.
Proof. unfold bind, call. by destruct (h (world s)) as [[e|x] w]. Qed.

Lemma bind_load {B} l (k : Dict → M W B) s :
  bind (load l) k s =
  match heap s !! l with
  | Some d => k d s
  | None => raise (DanglingReference l) s
  end.
Proof.
  unfold bind at 1, load. destruct (heap s !! l); simpl; [|done].
  by destruct (k _ _).
Qed.

Lemma bind_alloc {B} d (k : loc → M W B) s :
  bind (alloc d) k s =
  k (fresh (dom (heap s)))
    {| heap := <[fresh (dom (heap s)) := d]> (heap s); world := world s |}.
Proof. unfold bind, alloc; simpl. by destruct (k _ _). Qed.

Lemma bind_setitem {B} l key v (k : unit → M W B) s :
  bind (setitem l key v) k s =
  match heap s !! l with
  | Some d => k tt {| heap := <[l := <[key := v]> d]> (heap s);
                      world := world s |}
  | None => raise (DanglingReference l) s
  end.
Proof.
  unfold bind, setitem. destruct (heap s !! l); [|done]. simpl.
  by destruct (k _ _).
Qed.

Lemma bind_getitem {V B} (table : gmap string V) key (k : V → M W B) s :
  bind (getitem table key) k s =
  match table !! key with
  | Some v => k v s
  | None => raise (KeyError key) s
  end.
Proof. unfold getitem. destruct (table !! key); [apply bind_ret | done]. Qed.

(** The location of a new object holds nothing yet. *)
Lemma fresh_lookup_None (h : gmap loc Dict) : h !! fresh (dom h) = None.
Proof. apply not_elem_of_dom, is_fresh. Qed.
End Exec.

(** Give the location of the newest object a name, keeping only that it
    differs from every location in use. *)
Ltac name_fresh :=
  match goal with
  | |- context [fresh (dom ?h)] =>
      let l := fresh "l" in
      let Hl := fresh "Hl" in
      pose proof (fresh_lookup_None h) as Hl;
      set (l := fresh (dom h)) in *; clearbody l;
      repeat match goal with
             | H : <[_:=_]> _ !! _ = None |- _ =>
                 apply lookup_insert_None in H; destruct H
             end
  end.

Ltac heap_step :=
  first
    [ rewrite lookup_insert_eq
    | rewrite lookup_insert_ne by congruence
    | match goal with
      | H : ?h !! ?l = _ |- context [?h !! ?l] => rewrite H
      end ].

Ltac split_on x :=
  first [ is_var x; destruct x | destruct x eqn:? ].

Ltac exec_step :=
  match goal with
  | |- context [bind (bind _ _) _ _] => rewrite bind_assoc
  | |- context [bind (ret _) _ _] => rewrite bind_ret
  | |- context [bind (raise _) _ _] => rewrite bind_raise
  | |- context [bind (call _ _) _ _] => rewrite bind_call
  | |- context [bind (load _) _ _] => rewrite bind_load
  | |- context [bind (alloc _) _ _] => rewrite bind_alloc; cbn [heap world]; name_fresh
  | |- context [bind (setitem _ _ _) _ _] => rewrite bind_setitem
  | |- context [bind (getitem _ _) _ _] => rewrite bind_getitem
  | |- context [bind (if ?b then _ else _) _ _] => split_on b
  | |- context [bind (match ?o with _ => _ end) _ _] => split_on o
  | |- context [match ?x with _ => _ end] => split_on x
  end.

Ltac unfold_calls :=
  unfold dict_copy, contains, sendTransaction, estimateGas_eth, getCode,
    Contract_encodeConstructorData, Contract_deploy, Contract_estimateGas,
    Contract_transact, wait_for_receipt, contract_address_from_txn,
    block_gas_limit, compile;
  cbv zeta.

Ltac exec :=
  unfold_calls;
  repeat (first [heap_step | exec_step]; cbn [heap world]).

(** Keep one copy of the run [t] in the goal while it is executed. *)
Ltac focus_on t :=
  pattern t;
  match goal with
  | |- ?P _ => let Q := fresh "Q" in set (Q := P)
  end.

Ltac unfocus :=
  repeat match goal with
         | Q := _ |- _ => subst Q
         end;
  cbv beta.

Ltac observe :=
  cbn [evs res st heap world emit ret raise] in *;
  unfold submissions, gas_estimates, block_gas_limits in *;
  cbn [omap list_omap submitted gas_estimate_of block_gas_limit_of] in *.

Ltac elem_singleton :=
  repeat match goal with
         | H : _ ∈ [] |- _ => by inversion H
         | H : _ ∈ [_] |- _ => apply list_elem_of_singleton in H; subst
         end.

Ltac in_list :=
  repeat first [apply list_elem_of_here | apply list_elem_of_further].

(** ** Gas budgeting *)

(** A deployment with [auto_gas] whose estimate [E] fits the block gas
    limit [L] submits the stored transaction with [gas] set to
    [min(L, E + 100000)].  This is the half of C1 that the code keeps. *)
Lemma DeployContract_submits_budgeted_gas W (I : Imports W) op self kwargs s
    d (E L : Z) :
  as_deploy op = Some self →
  DeployContract.auto_gas self = true →
  heap s !! DeployContract.transaction self = Some d →
  E ∈ gas_estimates (evs (execute I op kwargs s)) →
  L ∈ block_gas_limits (evs (execute I op kwargs s)) →
  (E ≤ L)%Z →
  submissions (evs (execute I op kwargs s))
  = [<["gas" := VInt (Z.min L (E + 100000))]> d].
Proof.
  intros Hop Hag Hd. focus_on (execute I op kwargs s).
  destruct op; try discriminate; injection Hop as ->;
    cbn [execute]; unfold DeployRegistrar.execute, DeployContract.execute;
    rewrite Hag.
  all: exec; unfocus; observe; intros HE HL HEL; elem_singleton; try lia.
  all: congruence.
Qed.

(** Whatever [TransactContract.execute] submits is the stored transaction
    dictionary as it stands, not the copy that received the gas. *)
Lemma TransactContract_submits_stored_transaction W (I : Imports W) self web3
    cc s t :
  t ∈ submissions (evs (TransactContract.execute I self web3 cc s)) →
  heap s !! TransactContract.transaction self = Some t.
Proof.
  unfold TransactContract.execute.
  exec; observe; intros Ht; elem_singleton; congruence.
Qed.

Example DeployContract_budgeted_gas_submitted :
  submissions (evs (execute (demo_imports 4000000)
                      (OpDeployContract (demo_deploy true (Some 30)))
                      (demo_kwargs 21000 "0x60606040") demo_state))
  = [<["gas" := VInt 121000]> ∅].
Proof. compute_done. Qed.

(** C1 (the code departs from it): a [TransactContract] with the default
    [auto_gas], run where the estimate 21000 is below the block gas limit
    4000000, submits its transaction without any [gas] field, where
    [min(4000000, 21000 + 100000)] was to be carried. *)
Theorem TransactContract_budgeted_gas_not_submitted :
  let o := set_greeting 21000 4000000 empty_state in
  gas_estimates (evs o) = [21000] ∧
  block_gas_limits (evs o) = [4000000] ∧
  (λ t : Dict, t !! "gas") <$> submissions (evs o) = [None].
Proof. vm_compute. done. Qed.

(** C4: with [auto_gas] enabled, when the estimate obtained exceeds the
    block gas limit obtained, [execute] raises the gas-limit error of the
    operation and has submitted no transaction. *)
Theorem estimate_above_block_limit_rejected W (I : Imports W)
    (op : operation W) kwargs s (E L : Z) :
  auto_gas_enabled op = true →
  E ∈ gas_estimates (evs (execute I op kwargs s)) →
  L ∈ block_gas_limits (evs (execute I op kwargs s)) →
  (E > L)%Z →
  res (execute I op kwargs s) = inl (gas_limit_error op) ∧
  submissions (evs (execute I op kwargs s)) = [].
Proof.
  intros Hag. focus_on (execute I op kwargs s).
  destruct op; try discriminate; cbn [auto_gas_enabled] in Hag;
    cbn [execute gas_limit_error];
    unfold DeployRegistrar.execute, DeployContract.execute,
      TransactContract.execute;
    rewrite Hag.
  all: exec; unfocus; observe; intros HE HL HEL; elem_singleton; try lia.
  all: by split.
Qed.

Lemma estimate_above_block_limit_rejected_witness :
  let o := execute (demo_imports 3000000)
             (OpDeployContract (demo_deploy true (Some 30)))
             (demo_kwargs 3141592 "0x60606040") demo_state in
  res o = inl (ValueError
    "Contract does not appear to be delpoyable within the current network gas limits") ∧
  submissions (evs o) = [].
Proof.
  apply (estimate_above_block_limit_rejected nat (demo_imports 3000000)
           (OpDeployContract (demo_deploy true (Some 30)))
           (demo_kwargs 3141592 "0x60606040") demo_state 3141592 3000000).
  - reflexivity.
  - vm_compute. left.
  - vm_compute. left.
  - lia.
Defined.



(** ** Timeouts of [SendTransaction] *)

(** Left out, the timeout is 120; a number passed is kept. *)
Lemma SendTransaction_timeout_default W txn (s : State W) :
  SendTransaction.__init__ txn None s
  = ret {| SendTransaction.transaction := txn;
           SendTransaction.timeout := Some 120 |} s.
Proof. reflexivity. Qed.

(** Passed as [None], the timeout is not stored on the instance, and
    [self.timeout] reads the class attribute, 30. *)
Lemma SendTransaction_timeout_None W txn (s : State W) :
  SendTransaction.__init__ txn (Some None) s
  = ret {| SendTransaction.transaction := txn;
           SendTransaction.timeout := Some 30 |} s.
Proof. reflexivity. Qed.

(** An instance whose timeout really is unset only sends: the branch
    [execute] has for it never waits. *)
Lemma SendTransaction_execute_unset_timeout W (I : Imports W) txn web3 s e :
  e ∈ evs (SendTransaction.execute I
     {| SendTransaction.transaction := txn; SendTransaction.timeout := None |}
     web3 s) →
  ∃ d r, e = EvSendTransaction d r.
Proof.
  unfold SendTransaction.execute.
  cbn [SendTransaction.timeout SendTransaction.transaction].
  exec; observe; intros Hev; elem_singleton; eauto.
Qed.

(** C3 (the code departs from it): a [SendTransaction] built with
    [timeout=None] still waits for the receipt, for 30. *)
Theorem SendTransaction_timeout_None_still_waits :
  evs (send_without_timeout empty_state)
  = [EvSendTransaction {[ "value" := VInt 1 ]} (inr "0x5e4d");
     EvWaitForTransactionReceipt "0x5e4d" 30 (inr tt)].
Proof. vm_compute. reflexivity. Qed.

(** ** Results of a deployment *)

(** C5: a deployment that succeeds with a timeout returns the address the
    receipt gave, the hash the deployment gave, and a deferred value
    registered under [contract/<contract_name>] that resolves to that
    address; without a timeout it returns the hash alone. *)
Theorem DeployContract_result W (I : Imports W) op self kwargs s r :
  as_deploy op = Some self →
  res (execute I op kwargs s) = inr r →
  deployment_result self (evs (execute I op kwargs s)) r.
Proof.
  intros Hop. unfold deployment_result. focus_on (execute I op kwargs s).
  destruct op; try discriminate; injection Hop as ->;
    cbn [execute]; unfold DeployRegistrar.execute, DeployContract.execute.
  all: exec; unfocus; observe; intros [= <-].
  all: try (eexists; split; [reflexivity|]; eexists _, _, _; in_list).
  all: eexists _, _, _; split_and!; try reflexivity;
    [ in_list | eexists _, _, _; in_list ].
Qed.

Lemma DeployContract_result_witness :
  let o := execute (demo_imports 4000000)
             (OpDeployContract (demo_deploy true (Some 30)))
             (demo_kwargs 21000 "0x60606040") demo_state in
  let r : Dict :=
    <[ "contract-address" := VStr "0xc0de" ]>
    (<[ "deploy-transaction-hash" := VStr "0xd3b1" ]>
    {[ "canonical-contract-address" :=
         VDeferred "contract/Greeter" (VStr "0xc0de") ]}) in
  res o = inr r ∧ deployment_result (demo_deploy true (Some 30)) (evs o) r.
Proof.
  assert (res (execute (demo_imports 4000000)
             (OpDeployContract (demo_deploy true (Some 30)))
             (demo_kwargs 21000 "0x60606040") demo_state)
          = inr (<[ "contract-address" := VStr "0xc0de" ]>
                 (<[ "deploy-transaction-hash" := VStr "0xd3b1" ]>
                 {[ "canonical-contract-address" :=
                      VDeferred "contract/Greeter" (VStr "0xc0de") ]})))
    as Hres by compute_done.
  split; [exact Hres|].
  exact (DeployContract_result nat (demo_imports 4000000)
           (OpDeployContract (demo_deploy true (Some 30)))
           (demo_deploy true (Some 30))
           (demo_kwargs 21000 "0x60606040") demo_state _ eq_refl Hres).
Defined.

(** ** Verification of the deployed code *)

Ltac elems :=
  repeat match goal with
         | H : _ ∈ [] |- _ => by apply elem_of_nil in H
         | H : _ ∈ _ :: _ |- _ =>
             apply elem_of_cons in H; destruct H as [H|H]; simplify_eq
         end.

(** The comparison as the source makes it: when the code read and the
    runtime code of the factory differ after [force_text], the run ends
    with the verification error, after the deployment was submitted and
    its address obtained. *)
Lemma DeployContract_code_mismatch W (I : Imports W) op self kwargs s a
    code c t args r0 :
  as_deploy op = Some self →
  EvGetCode a (inr code) ∈ evs (execute I op kwargs s) →
  EvDeploy c t args r0 ∈ evs (execute I op kwargs s) →
  force_text I code ≠ force_text I (code_runtime c) →
  res (execute I op kwargs s) = inl verification_error ∧
  submissions (evs (execute I op kwargs s)) = [t] ∧
  ∃ h n, r0 = inr h ∧
         DeployContract.timeout self = Some n ∧
         EvGetContractAddressFromTxn h n (inr a)
           ∈ evs (execute I op kwargs s).
Proof.
  intros Hop. focus_on (execute I op kwargs s).
  destruct op; try discriminate; injection Hop as ->;
    cbn [execute]; unfold DeployRegistrar.execute, DeployContract.execute.
  all: exec; unfocus; observe; intros Hcode Hdeploy Hne; elems.
  all: try match goal with
           | H : bool_decide _ = false |- _ =>
               apply bool_decide_eq_false in H; contradiction
           end.
  all: split_and!; try reflexivity; eexists _, _; split_and!;
    try reflexivity; in_list.
Qed.

(** C6: with [verify] and a timeout, when the code read at the deployed
    address differs from the runtime code the factory expects, [execute]
    raises the verification error, although the deployment transaction
    was submitted and its address obtained from the receipt. *)
Theorem DeployContract_verification_fails W (I : Imports W) op self kwargs s
    n a code c t args r0 :
  force_text_faithful I →
  as_deploy op = Some self →
  DeployContract.verify self = true →
  DeployContract.timeout self = Some n →
  EvGetCode a (inr code) ∈ evs (execute I op kwargs s) →
  EvDeploy c t args r0 ∈ evs (execute I op kwargs s) →
  code ≠ code_runtime c →
  res (execute I op kwargs s) = inl verification_error ∧
  submissions (evs (execute I op kwargs s)) = [t] ∧
  ∃ h, r0 = inr h ∧
       EvGetContractAddressFromTxn h n (inr a) ∈ evs (execute I op kwargs s).
Proof.
  intros Hft Hop _ Hn Hcode Hdeploy Hne.
  destruct (DeployContract_code_mismatch W I op self kwargs s a code c t args
              r0 Hop Hcode Hdeploy) as (Hres & Hsub & h & n' & -> & Hn' & Hev).
  { intros Heq. apply Hne, Hft, Heq. }
  rewrite Hn in Hn'. injection Hn' as <-. eauto.
Qed.

Lemma DeployContract_verification_fails_witness :
  let o := execute (demo_imports 4000000)
             (OpDeployContract (demo_deploy true (Some 30)))
             (demo_kwargs 21000 "0xdead") demo_state in
  res o = inl verification_error ∧
  submissions (evs o) = [<["gas" := VInt 121000]> ∅] ∧
  ∃ h, @inr Exn Hash "0xd3b1" = inr h ∧
       EvGetContractAddressFromTxn h 30 (inr "0xc0de") ∈ evs o.
Proof.
  apply (DeployContract_verification_fails nat (demo_imports 4000000)
           (OpDeployContract (demo_deploy true (Some 30)))
           (demo_deploy true (Some 30)) (demo_kwargs 21000 "0xdead")
           demo_state 30 "0xc0de" "0xdead"
           (eth_contract None greeter_artifact)
           (<["gas" := VInt 121000]> ∅) [] (inr "0xd3b1")).
  - intros x y Hxy. exact Hxy.
  - reflexivity.
  - reflexivity.
  - reflexivity.
  - compute_done.
  - compute_done.
  - compute_done.
Defined.

(** ** What [execute] returns *)

(** C7 as stated fails: a [RunPython] returns what its callback returns,
    and a callback may return a mapping without any transaction hash. *)
Lemma RunPython_result_without_hash :
  let o := execute (demo_imports 4000000) run_nothing (demo_kwargs 21000 "")
             demo_state in
  res o = inr ∅ ∧
  has_transaction_hash ∅ = false ∧
  evs o = [].
Proof. split_and!; reflexivity. Qed.

(** C7, amended: every operation other than [RunPython] that succeeds
    returns a mapping holding the hash the network gave for the one
    transaction it submitted, under [transaction-hash] for
    [SendTransaction] and under [deploy-transaction-hash] for the others;
    a [RunPython] gives exactly what its callback gives. *)
Theorem execute_returns_transaction_hash W (I : Imports W) (op : operation W)
    kwargs s r :
  res (execute I op kwargs s) = inr r →
  match op with
  | OpRunPython o => execute I op kwargs s = RunPython.callback o kwargs s
  | _ =>
      ∃ h : Hash,
        r !! hash_key op = Some (VStr h) ∧
        omap submission_hash (evs (execute I op kwargs s)) = [h] ∧
        has_transaction_hash r = true
  end.
Proof.
  focus_on (execute I op kwargs s).
  destruct op; cbn [execute hash_key];
    unfold Operation.execute, SendTransaction.execute,
      DeployRegistrar.execute, DeployContract.execute,
      TransactContract.execute.
  2: { unfocus. intros _. reflexivity. }
  all: exec; unfocus; observe; intros [= <-].
  all: eexists; split_and!; reflexivity.
Qed.

Lemma execute_returns_transaction_hash_witness :
  let op : operation nat :=
    OpSendTransaction {| SendTransaction.transaction := 1%positive;
                         SendTransaction.timeout := Some 120 |} in
  let o := execute (demo_imports 4000000) op (demo_kwargs 21000 "")
             demo_state in
  let r : Dict := {[ "transaction-hash" := VStr "0x5e4d" ]} in
  res o = inr r ∧
  ∃ h : Hash,
    r !! hash_key op = Some (VStr h) ∧
    omap submission_hash (evs o) = [h] ∧
    has_transaction_hash r = true.
Proof.
  assert (res (execute (demo_imports 4000000)
             (OpSendTransaction
                {| SendTransaction.transaction := 1%positive;
                   SendTransaction.timeout := Some 120 |})
             (demo_kwargs 21000 "") demo_state)
          = inr {[ "transaction-hash" := VStr "0x5e4d" ]})
    as Hres by compute_done.
  split; [exact Hres|].
  exact (execute_returns_transaction_hash nat (demo_imports 4000000)
           (OpSendTransaction
              {| SendTransaction.transaction := 1%positive;
                 SendTransaction.timeout := Some 120 |})
           (demo_kwargs 21000 "") demo_state _ Hres).
Defined.

(** ** Validation at construction *)

(** C8: asked to verify (explicitly or by default) with [timeout=None], the
    constructor of [DeployContract], and of [DeployRegistrar], raises the
    configuration error; nothing has been called and the state is as it
    was. *)
Theorem DeployContract_verify_requires_timeout W name txn args verify
    auto_gas (s : State W) :
  default true verify = true →
  DeployContract.__init__ name txn args verify auto_gas (Some None) s
  = {| res := inl timeout_required_error; st := s; evs := [] |} ∧
  DeployRegistrar.__init__ txn args verify auto_gas (Some None) s
  = {| res := inl timeout_required_error; st := s; evs := [] |}.
Proof.
  intros Hverify.
  unfold DeployRegistrar.__init__, DeployContract.__init__.
  cbv zeta. rewrite Hverify. split; reflexivity.
Qed.

Lemma DeployContract_verify_requires_timeout_witness :
  DeployContract.__init__ "Greeter" None None (Some true) None (Some None)
    demo_state
  = {| res := inl timeout_required_error; st := demo_state; evs := [] |} ∧
  DeployRegistrar.__init__ None None (Some true) None (Some None) demo_state
  = {| res := inl timeout_required_error; st := demo_state; evs := [] |}.
Proof.
  apply (DeployContract_verify_requires_timeout nat "Greeter" None None
           (Some true) None demo_state).
  reflexivity.
Defined.

(** C9: with [auto_gas] on (explicitly or by default) and a transaction
    that already has a [gas] field, the constructors raise a configuration
    error, and nothing has been called.  For [TransactContract] it is the
    gas error; [DeployContract] checks the timeout and the [data]/[to]
    fields first and may raise their error instead. *)
Theorem auto_gas_rejects_preset_gas W name method args verify auto_gas
    timeout addr (s : State W) l d :
  default true auto_gas = true →
  heap s !! l = Some d →
  is_Some (d !! "gas") →
  (∃ e, e ∈ configuration_errors ∧
        DeployContract.__init__ name (Some l) args verify auto_gas timeout s
        = {| res := inl e; st := s; evs := [] |}) ∧
  (∃ e, e ∈ configuration_errors ∧
        DeployRegistrar.__init__ (Some l) args verify auto_gas timeout s
        = {| res := inl e; st := s; evs := [] |}) ∧
  TransactContract.__init__ name method args (Some l) addr auto_gas timeout s
  = {| res := inl gas_clash_error; st := s; evs := [] |}.
Proof.
  intros Hag Hd Hgas.
  assert (bool_decide (is_Some (d !! "gas")) = true) as Hdec
    by by apply bool_decide_eq_true.
  unfold DeployRegistrar.__init__, DeployContract.__init__,
    TransactContract.__init__.
  cbv zeta. rewrite Hag.
  split_and!.
  - exec; try discriminate Hdec; eexists; (split; [|reflexivity]);
      unfold configuration_errors; in_list.
  - exec; try discriminate Hdec; eexists; (split; [|reflexivity]);
      unfold configuration_errors; in_list.
  - exec; try discriminate Hdec; reflexivity.
Qed.

Lemma auto_gas_rejects_preset_gas_witness :
  let s : State nat :=
    {| heap := {[ 1%positive := {[ "gas" := VInt 90000 ]} ]};
       world := 0%nat |} in
  (∃ e, e ∈ configuration_errors ∧
        DeployContract.__init__ "Greeter" (Some 1%positive) None None None
          None s
        = {| res := inl e; st := s; evs := [] |}) ∧
  (∃ e, e ∈ configuration_errors ∧
        DeployRegistrar.__init__ (Some 1%positive) None None None None s
        = {| res := inl e; st := s; evs := [] |}) ∧
  TransactContract.__init__ "Greeter" "setGreeting" None (Some 1%positive)
    None None None s
  = {| res := inl gas_clash_error; st := s; evs := [] |}.
Proof.
  apply (auto_gas_rejects_preset_gas nat "Greeter" "setGreeting" None None
           None None None
           {| heap := {[ 1%positive := {[ "gas" := VInt 90000 ]} ]};
              world := 0%nat |}
           1%positive {[ "gas" := VInt 90000 ]}).
  - reflexivity.
  - compute_done.
  - compute_done.
Defined.

(** ** The stored transaction *)

(** C10: [execute] leaves the dictionary an operation stores as its
    transaction as it found it; the gas that [DeployContract] and
    [TransactContract] compute goes to a copy. *)
Theorem stored_transaction_not_mutated W (I : Imports W) (op : operation W)
    l kwargs s :
  stored_transaction op = Some l →
  heap (st (execute I op kwargs s)) !! l = heap s !! l.
Proof.
  intros Hop. focus_on (execute I op kwargs s).
  destruct op; try discriminate; injection Hop as <-; cbn [execute];
    unfold SendTransaction.execute, DeployRegistrar.execute,
      DeployContract.execute, TransactContract.execute.
  all: exec; unfocus; observe; repeat heap_step; reflexivity.
Qed.

Lemma stored_transaction_not_mutated_witness :
  heap (st (execute (demo_imports 4000000)
              (OpDeployContract (demo_deploy true (Some 30)))
              (demo_kwargs 21000 "0x60606040") demo_state)) !! 1%positive
  = heap demo_state !! 1%positive.
Proof.
  apply (stored_transaction_not_mutated nat (demo_imports 4000000)
           (OpDeployContract (demo_deploy true (Some 30))) 1%positive
           (demo_kwargs 21000 "0x60606040") demo_state).
  reflexivity.
Defined.

Ltac some_none :=
  repeat match goal with
         | H : _ ∧ _ |- _ => destruct H
         | H : is_Some _ |- _ => destruct H as [? H]
         | |- ¬ _ => intros ?
         end;
  congruence.

Ltac undecide :=
  repeat match goal with
         | H : bool_decide _ = true |- _ => apply bool_decide_eq_true in H
         | H : bool_decide _ = false |- _ => apply bool_decide_eq_false in H
         end.

(** ** More on construction *)

(** X1: a [DeployContract] whose transaction has a [data] or a [to] field is
    refused: with the timeout error when verification is asked without a
    timeout, which is checked first, and with the [data]/[to] error
    otherwise.  Nothing is called and the state is as it was. *)
Theorem DeployContract_rejects_data_or_to W name args verify auto_gas timeout
    (s : State W) l d :
  heap s !! l = Some d →
  is_Some (d !! "data") ∨ is_Some (d !! "to") →
  DeployContract.__init__ name (Some l) args verify auto_gas timeout s
  = {| res := inl (if is_none (default (Some 120) timeout)
                      && default true verify
                   then timeout_required_error else data_or_to_error);
       st := s; evs := [] |}.
Proof.
  intros Hd Hfield. unfold DeployContract.__init__. cbv zeta.
  destruct (is_none (default (Some 120) timeout) && default true verify);
    [reflexivity|].
  exec; undecide; try reflexivity; tauto.
Qed.

Lemma DeployContract_rejects_data_or_to_witness :
  DeployContract.__init__ "Greeter" (Some 1%positive) None None None None
    (state_with {[ "to" := VStr "0xc0de" ]})
  = {| res := inl data_or_to_error;
       st := state_with {[ "to" := VStr "0xc0de" ]}; evs := [] |}.
Proof.
  apply (DeployContract_rejects_data_or_to nat "Greeter" None None None None
           (state_with {[ "to" := VStr "0xc0de" ]}) 1%positive
           {[ "to" := VStr "0xc0de" ]}).
  - compute_done.
  - right. compute_done.
Defined.

(** X2: the constructor of [DeployContract] accepts a configuration exactly
    when none of its three checks fires: not (no timeout and verify), no
    [data] and no [to] field, not ([auto_gas] and a [gas] field). *)
Theorem DeployContract_init_succeeds_iff W name args verify auto_gas timeout
    (s : State W) l d :
  heap s !! l = Some d →
  (∃ self,
     res (DeployContract.__init__ name (Some l) args verify auto_gas timeout s)
     = inr self)
  ↔ ¬ (default (Some 120) timeout = None ∧ default true verify = true) ∧
    d !! "data" = None ∧
    d !! "to" = None ∧
    ¬ (default true auto_gas = true ∧ is_Some (d !! "gas")).
Proof.
  intros Hd. unfold DeployContract.__init__. cbv zeta.
  destruct (default (Some 120) timeout) as [n|], (default true verify),
    (default true auto_gas); cbn [is_none andb].
  all: exec; observe; undecide.
  all: rewrite <- ?eq_None_not_Some in *.
  all: split; [intros [self Hself]; try discriminate Hself | intros H].
  all: try (split_and!; try done; intuition congruence).
  all: try (exfalso; intuition congruence).
  all: try (split_and!; some_none).
  all: try (exfalso; some_none).
  all: eauto.
Qed.

Lemma DeployContract_init_succeeds_iff_witness :
  (∃ self,
     res (DeployContract.__init__ "Greeter" (Some 1%positive) None None None
            None demo_state) = inr self)
  ↔ ¬ (default (Some 120) (@None (option Z)) = None
       ∧ default true (@None bool) = true) ∧
    (∅ : Dict) !! "data" = None ∧
    (∅ : Dict) !! "to" = None ∧
    ¬ (default true (@None bool) = true ∧ is_Some ((∅ : Dict) !! "gas")).
Proof.
  apply (DeployContract_init_succeeds_iff nat "Greeter" None None None None
           demo_state 1%positive ∅).
  compute_done.
Defined.

(** X3: the constructor of [TransactContract] refuses a configuration exactly
    when [auto_gas] is on and the transaction has a [gas] field; passing
    [auto_gas=False] with a [gas] field is accepted.  What it builds keeps
    the names, the address and the transaction it was given. *)
Theorem TransactContract_init_succeeds_iff W name method args addr auto_gas
    timeout (s : State W) l d :
  heap s !! l = Some d →
  ((∃ self,
      res (TransactContract.__init__ name method args (Some l) addr auto_gas
             timeout s) = inr self)
   ↔ ¬ (default true auto_gas = true ∧ is_Some (d !! "gas"))) ∧
  (∀ self,
      res (TransactContract.__init__ name method args (Some l) addr auto_gas
             timeout s) = inr self →
      TransactContract.contract_name self = name ∧
      TransactContract.method_name self = method ∧
      TransactContract.contract_address self = addr ∧
      TransactContract.arguments self = default [] args ∧
      TransactContract.transaction self = l ∧
      st (TransactContract.__init__ name method args (Some l) addr auto_gas
            timeout s) = s).
Proof.
  intros Hd. unfold TransactContract.__init__. cbv zeta.
  destruct (default true auto_gas).
  all: exec; observe; undecide.
  all: split; [split; [intros [self Hself]; try discriminate Hself
                      | intros H] | intros self [= <-]].
  all: try (by split_and!).
  all: try tauto.
  all: try (intuition congruence).
  all: eauto.
Qed.

Lemma TransactContract_init_succeeds_iff_witness :
  ∃ self,
    res (TransactContract.__init__ "Greeter" "setGreeting" None
           (Some 1%positive) None (Some false) None
           (state_with {[ "gas" := VInt 90000 ]})) = inr self.
Proof.
  apply (proj1 (TransactContract_init_succeeds_iff nat "Greeter" "setGreeting"
                  None None (Some false) None
                  (state_with {[ "gas" := VInt 90000 ]}) 1%positive
                  {[ "gas" := VInt 90000 ]} ltac:(compute_done))).
  intros [Hag _]. discriminate Hag.
Defined.

(** X4: what a constructed [DeployContract] can be relied on for: if it
    verifies it has a timeout; its transaction is a dictionary of the heap
    with no [data] and no [to] field, and with no [gas] field when
    [auto_gas] is on; left out, the transaction is a new empty dictionary
    and the dictionaries that existed are as they were. *)
Theorem DeployContract_init_invariants W name txn args verify auto_gas timeout
    (s : State W) self :
  res (DeployContract.__init__ name txn args verify auto_gas timeout s)
  = inr self →
  let s' := st (DeployContract.__init__ name txn args verify auto_gas timeout
                  s) in
  DeployContract.contract_name self = name ∧
  (DeployContract.verify self = true → is_Some (DeployContract.timeout self)) ∧
  (∃ d, heap s' !! DeployContract.transaction self = Some d ∧
        d !! "data" = None ∧ d !! "to" = None ∧
        (DeployContract.auto_gas self = true → d !! "gas" = None) ∧
        (txn = None → d = ∅ ∧ heap s !! DeployContract.transaction self = None)) ∧
  (∀ l d, heap s !! l = Some d → heap s' !! l = Some d) ∧
  world s' = world s.
Proof.
  focus_on (DeployContract.__init__ name txn args verify auto_gas timeout s).
  unfold DeployContract.__init__. cbv zeta.
  destruct (default (Some 120) timeout) as [n|], (default true verify),
    (default true auto_gas), txn as [l|]; cbn [is_none andb].
  all: exec; unfocus; observe; undecide; intros [= <-].
  all: rewrite <- ?eq_None_not_Some in *.
  all: cbn [DeployContract.contract_name DeployContract.verify
            DeployContract.timeout DeployContract.transaction
            DeployContract.auto_gas].
  all: split_and!; try done; eauto.
  all: try (eexists; split_and!; first [eassumption | done | by rewrite lookup_insert_eq]).
  all: try (intros l' d' Hl'; rewrite lookup_insert_ne by congruence; done).
  all: eexists; split_and!; try (by rewrite lookup_insert_eq); try done.
Qed.

Lemma DeployContract_init_invariants_witness :
  ∃ self,
    res (DeployContract.__init__ "Greeter" None None None None None
           demo_state) = inr self ∧
    DeployContract.contract_name self = "Greeter" ∧
    (DeployContract.verify self = true
     → is_Some (DeployContract.timeout self)).
Proof.
  eexists. split; [vm_compute; reflexivity|].
  pose proof (DeployContract_init_invariants nat "Greeter" None None None
                None None demo_state _ eq_refl) as H.
  cbv zeta in H. destruct H as (Hname & Hverify & _).
  split; [exact Hname | exact Hverify].
Defined.

(** X5: operations built without a transaction do not share one: each gets a
    new empty dictionary of its own, at a location that held nothing. *)
Theorem omitted_transactions_not_shared W name1 name2 method (s : State W) :
  ∃ a b,
    res (construct_two name1 name2 method s) = inr (a, b) ∧
    DeployContract.transaction a ≠ TransactContract.transaction b ∧
    heap (st (construct_two name1 name2 method s))
      !! DeployContract.transaction a = Some ∅ ∧
    heap (st (construct_two name1 name2 method s))
      !! TransactContract.transaction b = Some ∅ ∧
    heap s !! DeployContract.transaction a = None ∧
    heap s !! TransactContract.transaction b = None.
Proof.
  focus_on (construct_two name1 name2 method s).
  unfold construct_two, DeployContract.__init__, TransactContract.__init__.
  cbv zeta. cbn [default is_none andb].
  exec; unfocus; observe; undecide.
  all: try match goal with
           | H : is_Some (∅ !! _) |- _ =>
               rewrite lookup_empty in H; by apply is_Some_None in H
           end.
  eexists _, _. split; [reflexivity|].
  cbn [DeployContract.transaction TransactContract.transaction].
  split_and!; try done.
  - rewrite lookup_insert_ne by congruence. by rewrite lookup_insert_eq.
  - by rewrite lookup_insert_eq.
Qed.

(** ** More on [execute] *)

(** X6: A contract name that is not in [compiled_contracts] makes [execute]
    raise the [KeyError] of that name at once: nothing is called, nothing
    is copied. *)
Theorem execute_missing_artifact W (I : Imports W) (op : operation W) kwargs s
    name :
  artifact_key op = Some name →
  compiled_contracts kwargs !! name = None →
  execute I op kwargs s = {| res := inl (KeyError name); st := s; evs := [] |}.
Proof.
  intros Hop Hname.
  destruct op; try discriminate; injection Hop as <-; cbn [execute];
    unfold DeployContract.execute, TransactContract.execute;
    rewrite bind_getitem, Hname; reflexivity.
Qed.

Lemma execute_missing_artifact_witness :
  execute (demo_imports 4000000)
    (OpTransactContract (demo_transact (Some 30)))
    {| web3 := demo_web3 21000 ""; compiled_contracts := ∅ |} demo_state
  = {| res := inl (KeyError "Greeter"); st := demo_state; evs := [] |}.
Proof.
  apply (execute_missing_artifact nat (demo_imports 4000000)
           (OpTransactContract (demo_transact (Some 30)))
           {| web3 := demo_web3 21000 ""; compiled_contracts := ∅ |}
           demo_state "Greeter").
  - reflexivity.
  - reflexivity.
Defined.

(** X7: with [auto_gas] off a deployment makes none of the calls of the gas
    budgeting, and what it submits has exactly the items of the stored
    transaction. *)
Theorem DeployContract_without_auto_gas W (I : Imports W) op self kwargs s :
  as_deploy op = Some self →
  DeployContract.auto_gas self = false →
  Forall (λ e, is_gas_call e = false) (evs (execute I op kwargs s)) ∧
  ∀ t, t ∈ submissions (evs (execute I op kwargs s)) →
       heap s !! DeployContract.transaction self = Some t.
Proof.
  intros Hop Hag. focus_on (execute I op kwargs s).
  destruct op; try discriminate; injection Hop as ->;
    cbn [execute]; unfold DeployRegistrar.execute, DeployContract.execute;
    rewrite Hag.
  all: exec; unfocus; observe.
  all: split; [repeat constructor | intros t Ht; elem_singleton; done].
Qed.

Lemma DeployContract_without_auto_gas_witness :
  let op := {| DeployContract.contract_name := "Greeter";
               DeployContract.auto_gas := false;
               DeployContract.transaction := 1%positive;
               DeployContract.arguments := [];
               DeployContract.verify := false;
               DeployContract.timeout := None |} in
  Forall (λ e, is_gas_call e = false)
    (evs (execute (demo_imports 4000000) (OpDeployContract op)
            (demo_kwargs 21000 "") demo_state)) ∧
  ∀ t, t ∈ submissions (evs (execute (demo_imports 4000000)
                               (OpDeployContract op) (demo_kwargs 21000 "")
                               demo_state)) →
       heap demo_state !! DeployContract.transaction op = Some t.
Proof.
  apply (DeployContract_without_auto_gas nat (demo_imports 4000000)
           (OpDeployContract
              {| DeployContract.contract_name := "Greeter";
                 DeployContract.auto_gas := false;
                 DeployContract.transaction := 1%positive;
                 DeployContract.arguments := [];
                 DeployContract.verify := false;
                 DeployContract.timeout := None |})).
  - reflexivity.
  - reflexivity.
Defined.

(** X8: A deployment with [auto_gas] never proposes gas above the block gas
    limit: whatever it submits carries a [gas] between the estimate it
    obtained and the block gas limit it obtained, and at most 100000 above
    the estimate. *)
Theorem DeployContract_gas_within_block_limit W (I : Imports W) op self kwargs
    s t :
  as_deploy op = Some self →
  DeployContract.auto_gas self = true →
  t ∈ submissions (evs (execute I op kwargs s)) →
  ∃ E L g : Z,
    gas_estimates (evs (execute I op kwargs s)) = [E] ∧
    block_gas_limits (evs (execute I op kwargs s)) = [L] ∧
    t !! "gas" = Some (VInt g) ∧
    (E ≤ g ≤ L)%Z ∧ (g ≤ E + 100000)%Z.
Proof.
  intros Hop Hag. focus_on (execute I op kwargs s).
  destruct op; try discriminate; injection Hop as ->;
    cbn [execute]; unfold DeployRegistrar.execute, DeployContract.execute;
    rewrite Hag.
  all: exec; unfocus; observe; intros Ht; elem_singleton.
  all: eexists _, _, _; split_and!;
    [reflexivity | reflexivity | apply lookup_insert_eq | lia | lia | lia].
Qed.

Lemma DeployContract_gas_within_block_limit_witness :
  ∃ E L g : Z,
    gas_estimates (evs (execute (demo_imports 3200000)
                          (OpDeployContract (demo_deploy true (Some 30)))
                          (demo_kwargs 3141592 "0x60606040") demo_state))
    = [E] ∧
    block_gas_limits (evs (execute (demo_imports 3200000)
                          (OpDeployContract (demo_deploy true (Some 30)))
                          (demo_kwargs 3141592 "0x60606040") demo_state))
    = [L] ∧
    (<["gas" := VInt 3200000]> ∅ : Dict) !! "gas" = Some (VInt g) ∧
    (E ≤ g ≤ L)%Z ∧ (g ≤ E + 100000)%Z.
Proof.
  apply (DeployContract_gas_within_block_limit nat (demo_imports 3200000)
           (OpDeployContract (demo_deploy true (Some 30)))
           (demo_deploy true (Some 30)) (demo_kwargs 3141592 "0x60606040")
           demo_state (<["gas" := VInt 3200000]> ∅)).
  - reflexivity.
  - reflexivity.
  - compute_done.
Defined.

(** X9: no operation of the module submits more than one transaction in one
    [execute] ([RunPython] does whatever its callback does). *)
Theorem execute_submits_at_most_once W (I : Imports W) (op : operation W)
    kwargs s :
  is_run_python op = false →
  (length (submissions (evs (execute I op kwargs s))) ≤ 1)%nat.
Proof.
  intros Hop. focus_on (execute I op kwargs s).
  destruct op; try discriminate; cbn [execute];
    unfold Operation.execute, SendTransaction.execute,
      DeployRegistrar.execute, DeployContract.execute,
      TransactContract.execute.
  all: exec; unfocus; observe; cbn [length]; lia.
Qed.

Lemma execute_submits_at_most_once_witness :
  (length (submissions (evs (execute (demo_imports 4000000%Z)
                               (OpTransactContract (demo_transact (Some 30%Z)))
                               (demo_kwargs 21000%Z "") demo_state))) ≤ 1)%nat.
Proof.
  apply (execute_submits_at_most_once nat (demo_imports 4000000)
           (OpTransactContract (demo_transact (Some 30)))
           (demo_kwargs 21000 "") demo_state).
  reflexivity.
Defined.

(** X10: an exception raised by a collaborator is not handled and nothing is
    retried: it is the outcome of [execute], and the call that raised it
    is the last call made. *)
Theorem collaborator_error_ends_execute W (I : Imports W) (op : operation W)
    kwargs s x :
  is_run_python op = false →
  x ∈ omap answer_error (evs (execute I op kwargs s)) →
  res (execute I op kwargs s) = inl x ∧
  last (evs (execute I op kwargs s)) ≫= answer_error = Some x.
Proof.
  intros Hop. focus_on (execute I op kwargs s).
  destruct op; try discriminate; cbn [execute];
    unfold Operation.execute, SendTransaction.execute,
      DeployRegistrar.execute, DeployContract.execute,
      TransactContract.execute.
  all: exec; unfocus; observe;
    cbn [omap list_omap answer_error]; intros Hx; elem_singleton.
  all: split; reflexivity.
Qed.

Lemma collaborator_error_ends_execute_witness :
  let o := execute (demo_imports 4000000)
             (OpDeployContract (demo_deploy true (Some 30)))
             {| web3 := failing_web3;
                compiled_contracts := {[ "Greeter" := greeter_artifact ]} |}
             demo_state in
  res o = inl (OtherError "ConnectionError") ∧
  last (evs o) ≫= answer_error = Some (OtherError "ConnectionError").
Proof.
  apply (collaborator_error_ends_execute nat (demo_imports 4000000)
           (OpDeployContract (demo_deploy true (Some 30)))
           {| web3 := failing_web3;
              compiled_contracts := {[ "Greeter" := greeter_artifact ]} |}
           demo_state (OtherError "ConnectionError")).
  - reflexivity.
  - compute_done.
Defined.

(** X11: [execute] changes no dictionary that exists: every object of the heap
    is found as it was, whatever the outcome; the copies it makes are new
    objects. *)
Theorem execute_preserves_heap W (I : Imports W) (op : operation W) kwargs s
    l d :
  is_run_python op = false →
  heap s !! l = Some d →
  heap (st (execute I op kwargs s)) !! l = Some d.
Proof.
  intros Hop Hd. focus_on (execute I op kwargs s).
  destruct op; try discriminate; cbn [execute];
    unfold Operation.execute, SendTransaction.execute,
      DeployRegistrar.execute, DeployContract.execute,
      TransactContract.execute.
  all: exec; unfocus; observe; repeat heap_step; try done.
Qed.

Lemma execute_preserves_heap_witness :
  heap (st (execute (demo_imports 4000000)
              (OpTransactContract (demo_transact (Some 30)))
              (demo_kwargs 21000 "") demo_state)) !! 1%positive
  = Some ∅.
Proof.
  apply (execute_preserves_heap nat (demo_imports 4000000)
           (OpTransactContract (demo_transact (Some 30)))
           (demo_kwargs 21000 "") demo_state 1%positive ∅).
  - reflexivity.
  - compute_done.
Defined.

(** X12: a [DeployRegistrar] is a [DeployContract] named [Registrar].  Its
    [execute] does not use the [compiled_contracts] it is passed: it
    starts by compiling [REGISTRAR_SOURCE]; if that raises, or if the
    output has no [Registrar], it stops there with that error. *)
Theorem DeployRegistrar_compiles_its_own_source W (I : Imports W) txn args
    verify auto_gas timeout (s0 : State W) self kwargs s :
  res (DeployRegistrar.__init__ txn args verify auto_gas timeout s0)
  = inr self →
  DeployContract.contract_name self = "Registrar" ∧
  (∀ cc, execute I (OpDeployRegistrar self)
           {| web3 := web3 kwargs; compiled_contracts := cc |} s
         = execute I (OpDeployRegistrar self) kwargs s) ∧
  ∃ r rest,
    evs (execute I (OpDeployRegistrar self) kwargs s)
    = EvCompileSource (REGISTRAR_SOURCE I) r :: rest ∧
    match r with
    | inl x => rest = [] ∧ res (execute I (OpDeployRegistrar self) kwargs s)
                           = inl x
    | inr cc =>
        cc !! "Registrar" = None →
        rest = [] ∧
        res (execute I (OpDeployRegistrar self) kwargs s)
        = inl (KeyError "Registrar")
    end.
Proof.
  intros Hinit.
  assert (DeployContract.contract_name self = "Registrar") as Hname.
  { revert Hinit. unfold DeployRegistrar.__init__, DeployContract.__init__.
    cbv zeta. exec; observe; intros [= <-]; reflexivity. }
  split; [exact Hname|]. split; [reflexivity|].
  cbn [execute]. unfold DeployRegistrar.execute, compile.
  rewrite bind_call.
  destruct (compile_source I (REGISTRAR_SOURCE I) (world s)) as [[x|cc] w].
  - eexists _, _. split; [reflexivity|]. by split.
  - eexists _, _. split; [reflexivity|]. intros Hcc.
    unfold DeployContract.execute. rewrite bind_getitem, Hname, Hcc.
    by split.
Qed.

Lemma DeployRegistrar_compiles_its_own_source_witness :
  ∃ self,
    res (DeployRegistrar.__init__ (W:=nat) None None None None None
           demo_state) = inr self ∧
    DeployContract.contract_name self = "Registrar".
Proof.
  eexists. split; [vm_compute; reflexivity|].
  exact (proj1 (DeployRegistrar_compiles_its_own_source nat
                  imports_without_registrar None None None None None
                  demo_state _ (demo_kwargs 21000 "") demo_state eq_refl)).
Defined.

(** X13: a [SendTransaction] that succeeds has sent the stored transaction as
    it stands, has waited for the receipt of the hash it got when it has
    a timeout, and returns that hash and nothing else; the heap is
    untouched. *)
Theorem SendTransaction_execute_success W (I : Imports W) self web3 s r :
  res (SendTransaction.execute I self web3 s) = inr r →
  ∃ (h : Hash) (d : Dict),
    r = {[ "transaction-hash" := VStr h ]} ∧
    heap s !! SendTransaction.transaction self = Some d ∧
    evs (SendTransaction.execute I self web3 s)
    = EvSendTransaction d (inr h)
      :: match SendTransaction.timeout self with
         | Some n => [EvWaitForTransactionReceipt h n (inr tt)]
         | None => []
         end ∧
    heap (st (SendTransaction.execute I self web3 s)) = heap s.
Proof.
  focus_on (SendTransaction.execute I self web3 s).
  unfold SendTransaction.execute.
  exec; unfocus; observe; intros [= <-].
  all: eexists _, _; split_and!; try reflexivity.
  all: by match goal with u : unit |- _ => destruct u end.
Qed.

Lemma SendTransaction_execute_success_witness :
  let self := {| SendTransaction.transaction := 1%positive;
                 SendTransaction.timeout := Some 120 |} in
  let o := SendTransaction.execute (demo_imports 4000000) self
             (demo_web3 21000 "") demo_state in
  ∃ (h : Hash) (d : Dict),
    ({[ "transaction-hash" := VStr "0x5e4d" ]} : Dict)
    = {[ "transaction-hash" := VStr h ]} ∧
    heap demo_state !! SendTransaction.transaction self = Some d ∧
    evs o = EvSendTransaction d (inr h)
            :: match SendTransaction.timeout self with
               | Some n => [EvWaitForTransactionReceipt h n (inr tt)]
               | None => []
               end ∧
    heap (st o) = heap demo_state.
Proof.
  apply (SendTransaction_execute_success nat (demo_imports 4000000)
           {| SendTransaction.transaction := 1%positive;
              SendTransaction.timeout := Some 120 |}
           (demo_web3 21000 "") demo_state
           {[ "transaction-hash" := VStr "0x5e4d" ]}).
  compute_done.
Defined.

(** X14: what a [TransactContract] submits it has estimated first: the call
    submitted has the contract, the transaction items, the method and
    the arguments of the estimate, which are those of the operation. *)
Theorem TransactContract_estimates_what_it_submits W (I : Imports W) self web3
    cc s c d m a r :
  TransactContract.auto_gas self = true →
  EvContractTransact c d m a r
    ∈ evs (TransactContract.execute I self web3 cc s) →
  m = TransactContract.method_name self ∧
  a = TransactContract.arguments self ∧
  address c = TransactContract.contract_address self ∧
  ∃ E : Z,
    EvContractEstimateGas c d m a (inr E)
      ∈ evs (TransactContract.execute I self web3 cc s).
Proof.
  intros Hag. focus_on (TransactContract.execute I self web3 cc s).
  unfold TransactContract.execute. rewrite Hag.
  exec; unfocus; observe; intros Hev; elems.
  all: split_and!; try reflexivity; eexists; in_list.
Qed.

Lemma TransactContract_estimates_what_it_submits_witness :
  let o := TransactContract.execute (demo_imports 4000000)
             (demo_transact (Some 30)) (demo_web3 21000 "")
             {[ "Greeter" := greeter_artifact ]} demo_state in
  "setGreeting" = TransactContract.method_name (demo_transact (Some 30)) ∧
  [VStr "Guten Tag"] = TransactContract.arguments (demo_transact (Some 30)) ∧
  address (eth_contract (Some "0xc0de") greeter_artifact)
  = TransactContract.contract_address (demo_transact (Some 30)) ∧
  ∃ E : Z,
    EvContractEstimateGas (eth_contract (Some "0xc0de") greeter_artifact) ∅
      "setGreeting" [VStr "Guten Tag"] (inr E) ∈ evs o.
Proof.
  apply (TransactContract_estimates_what_it_submits nat
           (demo_imports 4000000) (demo_transact (Some 30))
           (demo_web3 21000 "") {[ "Greeter" := greeter_artifact ]}
           demo_state (eth_contract (Some "0xc0de") greeter_artifact) ∅
           "setGreeting" [VStr "Guten Tag"] (inr "0x7a9c")).
  - reflexivity.
  - compute_done.
Defined.

(** X15: a [TransactContract] that succeeds returns, under
    [deploy-transaction-hash] and with nothing else, the hash its
    submission got, and with a timeout it has waited for the receipt of
    that hash. *)
Theorem TransactContract_execute_success W (I : Imports W) self web3 cc s r :
  res (TransactContract.execute I self web3 cc s) = inr r →
  ∃ (h : Hash) c d,
    r = {[ "deploy-transaction-hash" := VStr h ]} ∧
    heap s !! TransactContract.transaction self = Some d ∧
    EvContractTransact c d (TransactContract.method_name self)
      (TransactContract.arguments self) (inr h)
      ∈ evs (TransactContract.execute I self web3 cc s) ∧
    ∀ n, TransactContract.timeout self = Some n →
         last (evs (TransactContract.execute I self web3 cc s))
         = Some (EvWaitForTransactionReceipt h n (inr tt)).
Proof.
  focus_on (TransactContract.execute I self web3 cc s).
  unfold TransactContract.execute.
  exec; unfocus; observe; intros [= <-].
  all: eexists _, _, _; split_and!; try reflexivity; try in_list.
  all: intros n' [= <-] || intros n' [=].
  all: by match goal with u : unit |- _ => destruct u end.
Qed.

Lemma TransactContract_execute_success_witness :
  let o := TransactContract.execute (demo_imports 4000000)
             (demo_transact (Some 30)) (demo_web3 21000 "")
             {[ "Greeter" := greeter_artifact ]} demo_state in
  ∃ (h : Hash) c d,
    ({[ "deploy-transaction-hash" := VStr "0x7a9c" ]} : Dict)
    = {[ "deploy-transaction-hash" := VStr h ]} ∧
    heap demo_state !! TransactContract.transaction (demo_transact (Some 30))
    = Some d ∧
    EvContractTransact c d
      (TransactContract.method_name (demo_transact (Some 30)))
      (TransactContract.arguments (demo_transact (Some 30))) (inr h)
      ∈ evs o ∧
    ∀ n, TransactContract.timeout (demo_transact (Some 30)) = Some n →
         last (evs o) = Some (EvWaitForTransactionReceipt h n (inr tt)).
Proof.
  apply (TransactContract_execute_success nat (demo_imports 4000000)
           (demo_transact (Some 30)) (demo_web3 21000 "")
           {[ "Greeter" := greeter_artifact ]} demo_state
           {[ "deploy-transaction-hash" := VStr "0x7a9c" ]}).
  compute_done.
Defined.

(** X16: the transaction a deployment has estimated is the stored one with
    [data] set to the constructor data it had encoded for its arguments;
    and the deployment it then submits is made on the same contract
    factory with the same arguments. *)
Theorem DeployContract_estimate_transaction W (I : Imports W) op self kwargs s
    d t r :
  as_deploy op = Some self →
  heap s !! DeployContract.transaction self = Some d →
  EvEstimateGas t r ∈ evs (execute I op kwargs s) →
  ∃ c data,
    EvEncodeConstructorData c (DeployContract.arguments self) (inr data)
      ∈ evs (execute I op kwargs s) ∧
    t = <["data" := VStr data]> d ∧
    ∀ c' t' args' r',
      EvDeploy c' t' args' r' ∈ evs (execute I op kwargs s) →
      c' = c ∧ args' = DeployContract.arguments self.
Proof.
  intros Hop Hd. focus_on (execute I op kwargs s).
  destruct op; try discriminate; injection Hop as ->;
    cbn [execute]; unfold DeployRegistrar.execute, DeployContract.execute.
  all: exec; unfocus; observe; intros Hev; elems.
  all: eexists _, _; split_and!; [in_list | reflexivity |].
  all: intros c' t' args' r' Hdep; elems; by split.
Qed.

Lemma DeployContract_estimate_transaction_witness :
  let o := execute (demo_imports 4000000)
             (OpDeployContract (demo_deploy true (Some 30)))
             (demo_kwargs 21000 "0x60606040") demo_state in
  ∃ c data,
    EvEncodeConstructorData c
      (DeployContract.arguments (demo_deploy true (Some 30))) (inr data)
      ∈ evs o ∧
    (<["data" := VStr "0x6060604052"]> ∅ : Dict) = <["data" := VStr data]> ∅ ∧
    ∀ c' t' args' r',
      EvDeploy c' t' args' r' ∈ evs o →
      c' = c ∧ args' = DeployContract.arguments (demo_deploy true (Some 30)).
Proof.
  apply (DeployContract_estimate_transaction nat (demo_imports 4000000)
           (OpDeployContract (demo_deploy true (Some 30)))
           (demo_deploy true (Some 30)) (demo_kwargs 21000 "0x60606040")
           demo_state ∅ (<["data" := VStr "0x6060604052"]> ∅) (inr 21000)).
  - reflexivity.
  - compute_done.
  - compute_done.
Defined.

(** X17: the code on chain is read only to verify, and at the address the
    receipt of the submitted deployment gave. *)
Theorem DeployContract_reads_code_only_to_verify W (I : Imports W) op self
    kwargs s a r :
  as_deploy op = Some self →
  EvGetCode a r ∈ evs (execute I op kwargs s) →
  DeployContract.verify self = true ∧
  ∃ n h,
    DeployContract.timeout self = Some n ∧
    EvGetContractAddressFromTxn h n (inr a) ∈ evs (execute I op kwargs s) ∧
    ∃ c t args, EvDeploy c t args (inr h) ∈ evs (execute I op kwargs s).
Proof.
  intros Hop. focus_on (execute I op kwargs s).
  destruct op; try discriminate; injection Hop as ->;
    cbn [execute]; unfold DeployRegistrar.execute, DeployContract.execute.
  all: exec; unfocus; observe; intros Hev; elems.
  all: split; [reflexivity|]; eexists _, _; split_and!;
    [reflexivity | in_list | eexists _, _, _; in_list].
Qed.

Lemma DeployContract_reads_code_only_to_verify_witness :
  let o := execute (demo_imports 4000000)
             (OpDeployContract (demo_deploy true (Some 30)))
             (demo_kwargs 21000 "0x60606040") demo_state in
  DeployContract.verify (demo_deploy true (Some 30)) = true ∧
  ∃ n h,
    DeployContract.timeout (demo_deploy true (Some 30)) = Some n ∧
    EvGetContractAddressFromTxn h n (inr "0xc0de") ∈ evs o ∧
    ∃ c t args, EvDeploy c t args (inr h) ∈ evs o.
Proof.
  apply (DeployContract_reads_code_only_to_verify nat (demo_imports 4000000)
           (OpDeployContract (demo_deploy true (Some 30)))
           (demo_deploy true (Some 30)) (demo_kwargs 21000 "0x60606040")
           demo_state "0xc0de" (inr "0x60606040")).
  - reflexivity.
  - compute_done.
Defined.

(** X18: constructed and executed at once, a [DeployContract] never submits a
    transaction with a [data] or a [to] field, and with [auto_gas] on
    what it submits does carry a [gas]. *)
Theorem constructed_deployment_transaction W (I : Imports W) web3 cc name txn
    args verify auto_gas timeout s t :
  t ∈ submissions (evs (construct_and_deploy I web3 cc name txn args verify
                          auto_gas timeout s)) →
  t !! "data" = None ∧
  t !! "to" = None ∧
  (default true auto_gas = true → ∃ g : Z, t !! "gas" = Some (VInt g)).
Proof.
  focus_on (construct_and_deploy I web3 cc name txn args verify auto_gas
              timeout s).
  unfold construct_and_deploy, DeployContract.__init__,
    DeployContract.execute.
  cbv zeta.
  destruct (default (Some 120) timeout) as [n|], (default true verify),
    (default true auto_gas), txn as [l|]; cbn [is_none andb].
  all: unfold_calls;
    repeat (first [heap_step | exec_step];
            cbn [heap world DeployContract.contract_name
                 DeployContract.auto_gas DeployContract.transaction
                 DeployContract.arguments DeployContract.verify
                 DeployContract.timeout]).
  all: unfocus; observe; intros Ht; elem_singleton; undecide.
  all: rewrite <- ?eq_None_not_Some in *.
  all: rewrite ?lookup_insert_eq, ?lookup_insert_ne, ?lookup_empty by done.
  all: split_and!; try done; eauto.
Qed.

Lemma constructed_deployment_transaction_witness :
  (<["gas" := VInt 121000]> ∅ : Dict) !! "data" = None ∧
  (<["gas" := VInt 121000]> ∅ : Dict) !! "to" = None ∧
  (default true (@None bool) = true →
   ∃ g : Z, (<["gas" := VInt 121000]> ∅ : Dict) !! "gas" = Some (VInt g)).
Proof.
  apply (constructed_deployment_transaction nat (demo_imports 4000000)
           (demo_web3 21000 "0x60606040") {[ "Greeter" := greeter_artifact ]}
           "Greeter" None None None None None demo_state
           (<["gas" := VInt 121000]> ∅)).
  compute_done.
Defined.
